(** * process_transcription.py: transcription CSV to SQL INSERT statements

    A shallow embedding of [process_transcription] and [main] from
    [process_transcription.py], followed by the properties of the
    row transformer and of the command-line entry point. *)

From Stdlib Require Import Ascii String.
From Stdlib Require Import List NArith Bool Arith Lia.
Import ListNotations.

(** ** Python values *)

(** A Python [str] is a sequence of Unicode code points. *)
Definition char := N.
Definition str := list char.

(** An ASCII literal of the source, as a [str]. *)
Definition lit (s : string) : str := map N_of_ascii (list_ascii_of_string s).

Definition QUOTE : char := 39%N.   (* ' *)
Definition LF : char := 10%N.      (* line feed *)
Definition SPACE : char := 32%N.

(** Truth value of a [str]: the empty string is false, all others true. *)
Definition truthy (s : str) : bool :=
  match s with
  | [] => false
  | _ :: _ => true
  end.

(** [str.isspace] on one code point, the table of CPython's
    [_PyUnicode_IsWhitespace]. *)
Definition isspace (c : char) : bool :=
  ((9 <=? c) && (c <=? 13) || (28 <=? c) && (c <=? 32)
   || (c =? 133) || (c =? 160) || (c =? 5760)
   || (8192 <=? c) && (c <=? 8202)
   || (c =? 8232) || (c =? 8233) || (c =? 8239) || (c =? 8287)
   || (c =? 12288))%N.

(** [s.replace(old, new)] for a one-character [old]. *)
Fixpoint replace (old : char) (new : str) (s : str) : str :=
  match s with
  | [] => []
  | c :: s' =>
      if (c =? old)%N then new ++ replace old new s'
      else c :: replace old new s'
  end.

Fixpoint lstrip (s : str) : str :=
  match s with
  | [] => []
  | c :: s' => if isspace c then lstrip s' else s
  end.

Definition rstrip (s : str) : str := rev (lstrip (rev s)).

(** [s.strip()] with no argument: whitespace is removed from both ends. *)
Definition strip (s : str) : str := rstrip (lstrip s).

(** ** Exceptions and results *)

Inductive exn : Type :=
| StopIteration
| ReadFailure (msg : str)      (* an OSError or UnicodeDecodeError of the file *)
| UnicodeEncodeError (msg : str)   (* a string the output stream cannot encode *)
| SystemExit (code : N).

(** [str(e)], as the f-string in [main] renders it. *)
Definition exn_str (e : exn) : str :=
  match e with
  | StopIteration => []
  | ReadFailure msg => msg
  | UnicodeEncodeError msg => msg
  | SystemExit code => []
  end.

(** [isinstance(e, Exception)]: [SystemExit] derives from [BaseException] only. *)
Definition is_Exception (e : exn) : bool :=
  match e with
  | SystemExit _ => false
  | _ => true
  end.

Inductive result (A : Type) : Type :=
| Ok (a : A)
| Raise (e : exn).

Arguments Ok {A} a.
Arguments Raise {A} e.

(** ** The record source

    [csv.reader(f)] over the opened file is an iterator: each request either
    yields the next record (a list of fields), finds the input exhausted, or
    fails while reading or decoding the file. *)
Inductive reader : Type :=
| Exhausted
| Yield (row : list str) (rest : reader)
| Fails (msg : str).

(** The reader of a file that is read without failure. *)
Fixpoint reader_of (rows : list (list str)) : reader :=
  match rows with
  | [] => Exhausted
  | row :: rows' => Yield row (reader_of rows')
  end.

(** ** process_transcription *)

(** The f-string of lines 19-20: the literal runs over two source lines, so
    the text carries the space that ends line 19, the line feed, and the 23
    spaces that indent line 20. *)
Definition sql_statement (content_id text start end_ : str) : str :=
  lit "INSERT INTO transcriptions (content_id, text, start_time, end_time) "
  ++ [LF] ++ repeat SPACE 23
  ++ lit "VALUES ('" ++ content_id ++ lit "', '" ++ text ++ lit "', "
  ++ start ++ lit ", " ++ end_ ++ lit ");".

(** The body of the [for row in reader] loop, lines 12-21, as a function of
    the list [sql_statements] built so far. *)
Definition loop_body (content_id : str) (row : list str)
    (sql_statements : list str) : list str :=
  if 3 <=? length row then
    let start := nth 0 row [] in
    let end_ := nth 1 row [] in
    let text := nth 2 row [] in
    if negb (truthy start) || negb (truthy end_) || negb (truthy text) then
      sql_statements                                   (* continue *)
    else
      let text := strip (replace QUOTE [QUOTE; QUOTE] text) in
      let sql := sql_statement content_id text start end_ in
      sql_statements ++ [sql]
  else sql_statements.

Fixpoint for_rows (content_id : str) (rd : reader)
    (sql_statements : list str) : result (list str) :=
  match rd with
  | Exhausted => Ok sql_statements
  | Fails msg => Raise (ReadFailure msg)
  | Yield row rest => for_rows content_id rest (loop_body content_id row sql_statements)
  end.

(** [process_transcription(csv_path, content_id)], with the file at
    [csv_path] given by its record source [rd]. *)
Definition process_transcription (rd : reader) (content_id : str)
    : result (list str) :=
  match rd with                       (* next(reader)  # Skip header *)
  | Exhausted => Raise StopIteration
  | Fails msg => Raise (ReadFailure msg)
  | Yield _ rest => for_rows content_id rest []
  end.

(** ** main: standard streams as state, exceptions as results *)

Record streams : Type := { stdout : list str; stderr : list str }.

Definition IO (A : Type) : Type := streams -> result A * streams.

Definition ret {A} (a : A) : IO A := fun s => (Ok a, s).

Definition bind {A B} (m : IO A) (k : A -> IO B) : IO B :=
  fun s =>
    match m s with
    | (Ok a, s') => k a s'
    | (Raise e, s') => (Raise e, s')
    end.

Notation "x <- m ;; k" := (bind m (fun x => k))
  (at level 61, m at next level, right associativity).
Notation "m ;;; k" := (bind m (fun _ => k))
  (at level 61, right associativity).

(** The text encoding of [sys.stdout]: which code points above ASCII it can
    encode, and the text of the [UnicodeEncodeError] it raises for a string
    it cannot encode.  Every codec that Python uses for a standard stream
    encodes the ASCII code points. *)
Record stdout_codec : Type :=
  { can_encode : char -> bool; error_text : str -> str }.

Definition encodable (codec : stdout_codec) (s : str) : bool :=
  forallb (fun c => (c <? 128)%N || can_encode codec c) s.

(** [print(s)]: one call appends one entry to standard output, or raises
    when the stream cannot encode [s], and then writes nothing of it. *)
Definition print (codec : stdout_codec) (s : str) : IO unit :=
  fun st =>
    if encodable codec s then
      (Ok tt, {| stdout := stdout st ++ [s]; stderr := stderr st |})
    else (Raise (UnicodeEncodeError (error_text codec s)), st).

(** [print(s, file=sys.stderr)]; [sys.stderr] replaces what it cannot
    encode by an escape sequence, so the call does not raise. *)
Definition eprint (s : str) : IO unit :=
  fun st => (Ok tt, {| stdout := stdout st; stderr := stderr st ++ [s] |}).

Definition sys_exit {A} (code : N) : IO A := fun st => (Raise (SystemExit code), st).

(** A call of a function that touches neither stream. *)
Definition call {A} (r : result A) : IO A := fun st => (r, st).

(** [try: body except Exception as e: handler(e)]; what the body printed
    before it raised stays printed. *)
Definition try_except {A} (body : IO A) (handler : exn -> IO A) : IO A :=
  fun st =>
    match body st with
    | (Ok a, st') => (Ok a, st')
    | (Raise e, st') => if is_Exception e then handler e st' else (Raise e, st')
    end.

Fixpoint for_each {A} (xs : list A) (f : A -> IO unit) : IO unit :=
  match xs with
  | [] => ret tt
  | x :: xs' => f x ;;; for_each xs' f
  end.

(** [main()], with the codec of [sys.stdout], [sys.argv], the resolved
    [csv_path], the answer of [os.path.exists(csv_path)] and the record
    source of that file. *)
Definition main (codec : stdout_codec) (argv : list str) (csv_path : str)
    (path_exists : bool) (file : reader) : IO unit :=
  (if negb (length argv =? 2) then
     print codec (lit "Usage: python process_transcription.py <content_id>") ;;;
     sys_exit 1
   else ret tt) ;;;
  let content_id := nth 1 argv [] in
  (if negb path_exists then
     print codec (lit "Error: File not found: " ++ csv_path) ;;;
     sys_exit 1
   else ret tt) ;;;
  try_except
    (statements <- call (process_transcription file content_id) ;;
     print codec (lit "BEGIN;") ;;;
     for_each statements (print codec) ;;;
     print codec (lit "COMMIT;"))
    (fun e =>
       eprint (lit "Error processing file: " ++ exn_str e) ;;;
       sys_exit 1).

Definition no_output : streams := {| stdout := []; stderr := [] |}.

(** A standard output that encodes ASCII only. *)
Definition ascii_stdout : stdout_codec :=
  {| can_encode := fun _ => false;
     error_text := fun _ => lit "'ascii' codec can't encode character" |}.

(** The process's exit status for a finished run of [main]. *)
Definition exit_status (r : result unit) : N :=
  match r with
  | Ok _ => 0
  | Raise (SystemExit code) => code
  | Raise _ => 1
  end.

(** ** The validation of a record, in the words of the specification *)

(** A record passes when it has at least 3 fields and fields 0, 1 and 2 are
    each non-empty, with no trimming. *)
Definition passes_validation (row : list str) : bool :=
  (3 <=? length row)
  && negb (length (nth 0 row []) =? 0)
  && negb (length (nth 1 row []) =? 0)
  && negb (length (nth 2 row []) =? 0).

(** The text of a record as it is embedded in its statement. *)
Definition escaped_text (text : str) : str :=
  strip (replace QUOTE [QUOTE; QUOTE] text).

(** The statement of a record that passes. *)
Definition statement_of (content_id : str) (row : list str) : str :=
  sql_statement content_id (escaped_text (nth 2 row [])) (nth 0 row []) (nth 1 row []).

(** The statement in the one-line layout. *)
Definition one_line_statement (content_id text start end_ : str) : str :=
  lit "INSERT INTO transcriptions (content_id, text, start_time, end_time) VALUES ('"
  ++ content_id ++ lit "', '" ++ text ++ lit "', " ++ start ++ lit ", " ++ end_ ++ lit ");".

Definition count_char (c : char) (s : str) : nat :=
  length (filter (fun x => (x =? c)%N) s).

(** Scans left to right; [pending] says that the quote just read still waits
    for its partner.  Every quote must be followed at once by its partner. *)
Fixpoint quotes_paired_from (pending : bool) (s : str) : bool :=
  match s with
  | [] => negb pending
  | c :: s' =>
      if (c =? QUOTE)%N then quotes_paired_from (negb pending) s'
      else negb pending && quotes_paired_from false s'
  end.

Definition quotes_paired (s : str) : bool := quotes_paired_from false s.

(** ** Predicates used in the statements *)

Definition starts_with_space (s : str) : bool :=
  match s with
  | [] => false
  | c :: _ => isspace c
  end.

Definition ends_with_space (s : str) : bool := starts_with_space (rev s).

Definition is_quote (c : char) : bool := (c =? QUOTE)%N.

(** The characters of [s] other than single quotes, in order. *)
Definition without_quotes (s : str) : str := filter (fun c => negb (is_quote c)) s.

(** What one record adds to the output: the loop body run on an empty list. *)
Definition contribution (content_id : str) (row : list str) : list str :=
  loop_body content_id row [].

(** A record that is short or has an empty required field. *)
Definition rejected (row : list str) : bool :=
  (length row <? 3)
  || (length (nth 0 row []) =? 0)
  || (length (nth 1 row []) =? 0)
  || (length (nth 2 row []) =? 0).

(** The number of passing records among the first [i] of [rows]. *)
Definition passing_before (i : nat) (rows : list (list str)) : nat :=
  length (filter passes_validation (firstn i rows)).

(** A record source that yields [rows] and then goes on as [tail]. *)
Fixpoint reader_app (rows : list (list str)) (tail : reader) : reader :=
  match rows with
  | [] => tail
  | row :: rows' => Yield row (reader_app rows' tail)
  end.

(** How SQL reads the inside of a single-quoted literal: two quotes in a row
    stand for one quote character. *)
Fixpoint sql_literal_value (s : str) : str :=
  match s with
  | [] => []
  | c :: s' =>
      if (c =? QUOTE)%N then
        match s' with
        | c' :: s'' =>
            if (c' =? QUOTE)%N then QUOTE :: sql_literal_value s''
            else c :: sql_literal_value s'
        | [] => [c]
        end
      else c :: sql_literal_value s'
  end.

(** [s] is the statement that the transform's result holds for [row]: it
    stands between the statements of the records before [row] and the
    statements of the records after it. *)
Definition emitted_for (content_id : str) (header : list str)
    (before : list (list str)) (row : list str) (after : list (list str))
    (s : str) : Prop :=
  exists out_before out_after,
    process_transcription (reader_of (header :: before)) content_id = Ok out_before
    /\ process_transcription (reader_of (header :: after)) content_id = Ok out_after
    /\ process_transcription (reader_of (header :: before ++ row :: after)) content_id
       = Ok (out_before ++ s :: out_after).

(** The strings of [xs] up to the first one the stream cannot encode. *)
Fixpoint encodable_prefix (codec : stdout_codec) (xs : list str) : list str :=
  match xs with
  | [] => []
  | x :: xs' => if encodable codec x then x :: encodable_prefix codec xs' else []
  end.

(** The first string of [xs] that the stream cannot encode. *)
Fixpoint first_unencodable (codec : stdout_codec) (xs : list str) : option str :=
  match xs with
  | [] => None
  | x :: xs' => if encodable codec x then first_unencodable codec xs' else Some x
  end.

(** Sanity checks of the embedding on concrete values. *)

Example strip_example :
  strip (lit "  a b  ") = lit "a b".
Proof. reflexivity. Qed.

Example replace_example :
  replace QUOTE [QUOTE; QUOTE] (lit "It's") = lit "It''s".
Proof. reflexivity. Qed.

Example quotes_paired_example :
  quotes_paired (lit "a''b''''") = true /\ quotes_paired (lit "a'b'") = false.
Proof. split; reflexivity. Qed.

(** ** Whitespace and stripping *)

Section Strip.

Lemma space_not_quote (c : char) : isspace c = true -> (c =? QUOTE)%N = false.
Proof.
  intros H. destruct (N.eqb_spec c QUOTE) as [->|]; [discriminate H | reflexivity].
Qed.

Lemma lstrip_no_leading (s : str) : starts_with_space (lstrip s) = false.
Proof.
  induction s as [|c s IH]; simpl; [reflexivity|].
  destruct (isspace c) eqn:E; [exact IH | simpl; exact E].
Qed.

Lemma lstrip_prefix (s : str) :
  exists pre, forallb isspace pre = true /\ s = pre ++ lstrip s.
Proof.
  induction s as [|c s [pre [Hp Hs]]]; simpl.
  - exists []. split; reflexivity.
  - destruct (isspace c) eqn:E.
    + exists (c :: pre). simpl. rewrite E, Hp. split; [reflexivity | congruence].
    + exists []. split; reflexivity.
Qed.

Lemma lstrip_spaces_app (pre s : str) :
  forallb isspace pre = true -> lstrip (pre ++ s) = lstrip s.
Proof.
  induction pre as [|c pre IH]; simpl; intros H; [reflexivity|].
  apply andb_true_iff in H as [Hc Hp]. rewrite Hc. auto.
Qed.

Lemma lstrip_fixed (s : str) : starts_with_space s = false -> lstrip s = s.
Proof.
  destruct s as [|c s]; simpl; intros H; [reflexivity | rewrite H; reflexivity].
Qed.

Lemma forallb_rev (f : char -> bool) (s : str) :
  forallb f (rev s) = forallb f s.
Proof.
  induction s as [|c s IH]; simpl; [reflexivity|].
  rewrite forallb_app, IH. simpl. rewrite andb_true_r. apply andb_comm.
Qed.

(** [strip] cuts a run of whitespace from each end, and nothing else. *)
Lemma strip_decompose (s : str) :
  exists pre suf,
    forallb isspace pre = true /\ forallb isspace suf = true /\
    s = pre ++ strip s ++ suf.
Proof.
  destruct (lstrip_prefix s) as [pre [Hpre Hs]].
  destruct (lstrip_prefix (rev (lstrip s))) as [p2 [Hp2 Hr]].
  exists pre, (rev p2). split; [exact Hpre|]. split.
  - rewrite forallb_rev. exact Hp2.
  - unfold strip, rstrip. rewrite <- rev_app_distr, <- Hr, rev_involutive.
    exact Hs.
Qed.

Lemma strip_no_trailing (s : str) : ends_with_space (strip s) = false.
Proof.
  unfold ends_with_space, strip, rstrip. rewrite rev_involutive.
  apply lstrip_no_leading.
Qed.

Lemma strip_no_leading (s : str) : starts_with_space (strip s) = false.
Proof.
  destruct (lstrip_prefix (rev (lstrip s))) as [p2 [_ Hr]].
  assert (Hm : lstrip s = strip s ++ rev p2).
  { unfold strip, rstrip. rewrite <- rev_app_distr, <- Hr, rev_involutive.
    reflexivity. }
  destruct (strip s) as [|c u] eqn:E; [reflexivity|].
  pose proof (lstrip_no_leading s) as H. rewrite Hm in H. exact H.
Qed.

(** What [strip] returns is determined by the decomposition. *)
Lemma strip_unique (pre core suf : str) :
  forallb isspace pre = true -> forallb isspace suf = true ->
  starts_with_space core = false -> ends_with_space core = false ->
  strip (pre ++ core ++ suf) = core.
Proof.
  intros Hpre Hsuf Hl Hr. unfold strip, rstrip.
  rewrite lstrip_spaces_app by exact Hpre.
  destruct core as [|c core].
  - simpl. destruct (lstrip_prefix suf) as [p [_ Hp]].
    assert (Hs : lstrip suf = []).
    { rewrite <- (app_nil_r suf), lstrip_spaces_app by exact Hsuf. reflexivity. }
    rewrite Hs. reflexivity.
  - rewrite (lstrip_fixed ((c :: core) ++ suf)) by exact Hl.
    rewrite rev_app_distr, lstrip_spaces_app by (rewrite forallb_rev; exact Hsuf).
    rewrite (lstrip_fixed (rev (c :: core))) by exact Hr. apply rev_involutive.
Qed.

End Strip.

(** ** Quote doubling *)

Section Replace.

Local Abbreviation double := (replace QUOTE [QUOTE; QUOTE]).

Lemma replace_app (s t : str) : double (s ++ t) = double s ++ double t.
Proof.
  induction s as [|c s IH]; simpl; [reflexivity|].
  destruct (c =? QUOTE)%N; rewrite IH; reflexivity.
Qed.

Lemma replace_spaces (s : str) : forallb isspace s = true -> double s = s.
Proof.
  induction s as [|c s IH]; simpl; intros H; [reflexivity|].
  apply andb_true_iff in H as [Hc Hs].
  rewrite (space_not_quote _ Hc), IH by exact Hs. reflexivity.
Qed.

Lemma replace_rev (s : str) : double (rev s) = rev (double s).
Proof.
  induction s as [|c s IH]; simpl; [reflexivity|].
  rewrite replace_app, IH. simpl.
  destruct (c =? QUOTE)%N eqn:E.
  - simpl. rewrite <- app_assoc. reflexivity.
  - reflexivity.
Qed.

Lemma replace_starts_with_space (s : str) :
  starts_with_space (double s) = starts_with_space s.
Proof.
  destruct s as [|c s]; simpl; [reflexivity|].
  destruct (N.eqb_spec c QUOTE) as [->|]; reflexivity.
Qed.

Lemma replace_ends_with_space (s : str) :
  ends_with_space (double s) = ends_with_space s.
Proof.
  unfold ends_with_space. rewrite <- replace_rev. apply replace_starts_with_space.
Qed.

Lemma count_replace (s : str) :
  count_char QUOTE (double s) = 2 * count_char QUOTE s.
Proof.
  unfold count_char. induction s as [|c s IH]; simpl; [reflexivity|].
  destruct (c =? QUOTE)%N eqn:E; simpl.
  - rewrite IH. simpl. lia.
  - rewrite E. exact IH.
Qed.

Lemma count_spaces (s : str) :
  forallb isspace s = true -> count_char QUOTE s = 0.
Proof.
  unfold count_char. induction s as [|c s IH]; simpl; intros H; [reflexivity|].
  apply andb_true_iff in H as [Hc Hs].
  rewrite (space_not_quote _ Hc). auto.
Qed.

Lemma count_app (s t : str) :
  count_char QUOTE (s ++ t) = count_char QUOTE s + count_char QUOTE t.
Proof. unfold count_char. rewrite filter_app, length_app. reflexivity. Qed.

Lemma replace_paired (s : str) : quotes_paired (double s) = true.
Proof.
  unfold quotes_paired. induction s as [|c s IH]; simpl; [reflexivity|].
  destruct (c =? QUOTE)%N eqn:E; simpl; [exact IH | rewrite E; exact IH].
Qed.

Lemma without_quotes_replace (s : str) :
  without_quotes (double s) = without_quotes s.
Proof.
  unfold without_quotes, is_quote. induction s as [|c s IH]; simpl; [reflexivity|].
  destruct (c =? QUOTE)%N eqn:E; simpl; [exact IH | rewrite E; simpl; congruence].
Qed.

(** Doubling the quotes and stripping commute: a quote is not whitespace. *)
Lemma escaped_text_strip_first (t : str) :
  escaped_text t = double (strip t).
Proof.
  unfold escaped_text.
  destruct (strip_decompose t) as [pre [suf [Hpre [Hsuf Ht]]]].
  rewrite Ht at 1. rewrite !replace_app, (replace_spaces _ Hpre), (replace_spaces _ Hsuf).
  apply strip_unique; try assumption.
  - rewrite replace_starts_with_space. apply strip_no_leading.
  - rewrite replace_ends_with_space. apply strip_no_trailing.
Qed.

End Replace.

(** ** The row transformer on a file that is read without failure *)

Section Transformer.

Variable content_id : str.

Lemma truthy_length (s : str) : negb (truthy s) = (length s =? 0).
Proof. destruct s; reflexivity. Qed.

Lemma truthy_nonempty (s : str) : truthy s = true <-> s <> [].
Proof. destruct s; simpl; split; congruence. Qed.

Lemma loop_body_spec (row : list str) (acc : list str) :
  loop_body content_id row acc =
  acc ++ (if passes_validation row then [statement_of content_id row] else []).
Proof.
  unfold loop_body, passes_validation, statement_of, escaped_text.
  rewrite !truthy_length.
  destruct (3 <=? length row); simpl; [|symmetry; apply app_nil_r].
  destruct (length (nth 0 row []) =? 0); simpl; [symmetry; apply app_nil_r|].
  destruct (length (nth 1 row []) =? 0); simpl; [symmetry; apply app_nil_r|].
  destruct (length (nth 2 row []) =? 0); simpl; [symmetry; apply app_nil_r|].
  reflexivity.
Qed.

Lemma loop_body_acc (row : list str) (acc : list str) :
  loop_body content_id row acc = acc ++ contribution content_id row.
Proof. unfold contribution. rewrite !loop_body_spec. reflexivity. Qed.

Lemma contribution_spec (row : list str) :
  contribution content_id row =
  if passes_validation row then [statement_of content_id row] else [].
Proof. unfold contribution. rewrite loop_body_spec. reflexivity. Qed.

Lemma for_rows_reader_of (rows : list (list str)) (acc : list str) :
  for_rows content_id (reader_of rows) acc =
  Ok (acc ++ flat_map (contribution content_id) rows).
Proof.
  revert acc. induction rows as [|row rows IH]; intros acc; simpl.
  - rewrite app_nil_r. reflexivity.
  - rewrite IH, loop_body_acc, app_assoc. reflexivity.
Qed.

Lemma flat_map_contribution (rows : list (list str)) :
  flat_map (contribution content_id) rows =
  map (statement_of content_id) (filter passes_validation rows).
Proof.
  induction rows as [|row rows IH]; simpl; [reflexivity|].
  rewrite contribution_spec, IH.
  destruct (passes_validation row); reflexivity.
Qed.

Lemma process_reader_of (header : list str) (rest : list (list str)) :
  process_transcription (reader_of (header :: rest)) content_id =
  Ok (map (statement_of content_id) (filter passes_validation rest)).
Proof.
  simpl. rewrite for_rows_reader_of, flat_map_contribution. reflexivity.
Qed.

Lemma passes_validation_iff (row : list str) :
  passes_validation row = true <->
  3 <= length row /\ nth 0 row [] <> [] /\ nth 1 row [] <> [] /\ nth 2 row [] <> [].
Proof.
  unfold passes_validation.
  rewrite !andb_true_iff, !negb_true_iff, Nat.leb_le, !Nat.eqb_neq, !length_zero_iff_nil.
  tauto.
Qed.

Lemma rejected_negb (row : list str) : rejected row = negb (passes_validation row).
Proof.
  unfold rejected, passes_validation.
  rewrite !negb_andb, !negb_involutive, Nat.ltb_antisym. reflexivity.
Qed.

Lemma filter_split_length (A : Type) (p : A -> bool) (l : list A) :
  length (filter p l) + length (filter (fun x => negb (p x)) l) = length l.
Proof.
  induction l as [|a l IH]; simpl; [reflexivity|].
  destruct (p a); simpl; lia.
Qed.

Lemma filter_nth_error (A : Type) (p : A -> bool) (l : list A) :
  forall i r, nth_error l i = Some r -> p r = true ->
  nth_error (filter p l) (length (filter p (firstn i l))) = Some r.
Proof.
  induction l as [|a l IH]; intros [|i] r Hn Hp; simpl in *; try discriminate.
  - injection Hn as ->. rewrite Hp. reflexivity.
  - destruct (p a); simpl; apply IH; assumption.
Qed.

Lemma filter_firstn_lt (A : Type) (p : A -> bool) (l : list A) :
  forall i j r, i < j -> nth_error l i = Some r -> p r = true ->
  length (filter p (firstn i l)) < length (filter p (firstn j l)).
Proof.
  induction l as [|a l IH]; intros [|i] [|j] r Hij Hn Hp; simpl in *;
    try discriminate; try lia.
  - injection Hn as ->. rewrite Hp. simpl. lia.
  - assert (Hlt : i < j) by lia.
    specialize (IH i j r Hlt Hn Hp). destruct (p a); simpl; lia.
Qed.

Lemma strip_spaces (t : str) : forallb isspace t = true -> strip t = [].
Proof.
  intros H. rewrite <- (app_nil_r t).
  apply (strip_unique t [] []); auto.
Qed.

Lemma emitted_for_passing (header : list str) (before : list (list str))
    (row : list str) (after : list (list str)) :
  passes_validation row = true ->
  emitted_for content_id header before row after
    (sql_statement content_id (escaped_text (nth 2 row []))
       (nth 0 row []) (nth 1 row [])).
Proof.
  intros H. unfold emitted_for. do 2 eexists.
  rewrite !process_reader_of, filter_app, map_app.
  cbn [filter]. rewrite H. cbn [map]. unfold statement_of. auto.
Qed.

(** The statement settles the text literal it carries, and the result of the
    transform settles the statement of a record. *)
Lemma sql_statement_text_inj (t t' start end_ : str) :
  sql_statement content_id t start end_ = sql_statement content_id t' start end_ ->
  t = t'.
Proof.
  unfold sql_statement. intros H.
  repeat (apply app_inv_head in H). apply app_inv_tail in H. exact H.
Qed.

Lemma emitted_for_unique (header : list str) (before : list (list str))
    (row : list str) (after : list (list str)) (s s' : str) :
  emitted_for content_id header before row after s ->
  emitted_for content_id header before row after s' -> s = s'.
Proof.
  intros [b [a [Hb [Ha H]]]] [b' [a' [Hb' [Ha' H']]]].
  rewrite Hb in Hb'. rewrite Ha in Ha'. rewrite H in H'.
  injection Hb' as <-. injection Ha' as <-. injection H' as H'.
  apply app_inv_head in H'. injection H' as ->. reflexivity.
Qed.

End Transformer.

(** ** main *)

Section Main.

Variable codec : stdout_codec.

Lemma encodable_usage :
  encodable codec (lit "Usage: python process_transcription.py <content_id>") = true.
Proof. reflexivity. Qed.

Lemma encodable_begin : encodable codec (lit "BEGIN;") = true.
Proof. reflexivity. Qed.

Lemma encodable_commit : encodable codec (lit "COMMIT;") = true.
Proof. reflexivity. Qed.

Lemma first_unencodable_none (xs : list str) :
  first_unencodable codec xs = None <-> forallb (encodable codec) xs = true.
Proof.
  induction xs as [|x xs IH]; simpl; [tauto|].
  destruct (encodable codec x); simpl; [exact IH | split; discriminate].
Qed.

Lemma first_unencodable_split (good : list str) (bad : str) (rest : list str) :
  forallb (encodable codec) good = true -> encodable codec bad = false ->
  first_unencodable codec (good ++ bad :: rest) = Some bad
  /\ encodable_prefix codec (good ++ bad :: rest) = good.
Proof.
  intros Hg Hb. induction good as [|x good IH]; simpl in *.
  - rewrite Hb. split; reflexivity.
  - apply andb_true_iff in Hg as [Hx Hg]. rewrite Hx.
    destruct (IH Hg) as [H1 H2]. rewrite H1, H2. split; reflexivity.
Qed.

Lemma for_each_print (xs : list str) (st : streams) :
  for_each xs (print codec) st =
  match first_unencodable codec xs with
  | None => (Ok tt, {| stdout := stdout st ++ xs; stderr := stderr st |})
  | Some bad =>
      (Raise (UnicodeEncodeError (error_text codec bad)),
       {| stdout := stdout st ++ encodable_prefix codec xs; stderr := stderr st |})
  end.
Proof.
  revert st. induction xs as [|x xs IH]; intros st; simpl.
  - unfold ret. rewrite app_nil_r. destruct st; reflexivity.
  - unfold bind, print at 1. destruct (encodable codec x) eqn:E.
    + rewrite IH. simpl. destruct (first_unencodable codec xs).
      * rewrite <- app_assoc. reflexivity.
      * rewrite <- app_assoc. reflexivity.
    + rewrite app_nil_r. destruct st; reflexivity.
Qed.

Lemma for_rows_raises (content_id : str) (rd : reader) (acc : list str) (e : exn) :
  for_rows content_id rd acc = Raise e -> is_Exception e = true.
Proof.
  revert acc. induction rd as [|row rest IH|msg]; intros acc H; simpl in H.
  - discriminate.
  - eapply IH; eassumption.
  - injection H as <-. reflexivity.
Qed.

Lemma process_raises (content_id : str) (rd : reader) (e : exn) :
  process_transcription rd content_id = Raise e -> is_Exception e = true.
Proof.
  destruct rd as [|row rest|msg]; simpl; intros H.
  - injection H as <-. reflexivity.
  - eapply for_rows_raises; eassumption.
  - injection H as <-. reflexivity.
Qed.

(** Every run of [main], case by case. *)
Lemma main_outcome
    (argv : list str) (csv_path : str) (path_exists : bool) (file : reader)
    (st : streams) :
  main codec argv csv_path path_exists file st =
  if negb (length argv =? 2) then
    (Raise (SystemExit 1),
     {| stdout := stdout st ++ [lit "Usage: python process_transcription.py <content_id>"];
        stderr := stderr st |})
  else if negb path_exists then
    if encodable codec (lit "Error: File not found: " ++ csv_path) then
      (Raise (SystemExit 1),
       {| stdout := stdout st ++ [lit "Error: File not found: " ++ csv_path];
          stderr := stderr st |})
    else
      (Raise (UnicodeEncodeError
                (error_text codec (lit "Error: File not found: " ++ csv_path))), st)
  else
    match process_transcription file (nth 1 argv []) with
    | Ok statements =>
        match first_unencodable codec statements with
        | None =>
            (Ok tt,
             {| stdout := stdout st ++ [lit "BEGIN;"] ++ statements ++ [lit "COMMIT;"];
                stderr := stderr st |})
        | Some bad =>
            (Raise (SystemExit 1),
             {| stdout := stdout st ++ [lit "BEGIN;"] ++ encodable_prefix codec statements;
                stderr := stderr st
                          ++ [lit "Error processing file: " ++ error_text codec bad] |})
        end
    | Raise e =>
        (Raise (SystemExit 1),
         {| stdout := stdout st;
            stderr := stderr st ++ [lit "Error processing file: " ++ exn_str e] |})
    end.
Proof.
  unfold main, bind, try_except, call, ret.
  destruct (length argv =? 2); cbn [negb].
  - destruct path_exists; cbn [negb].
    + destruct (process_transcription file (nth 1 argv [])) as [out|e] eqn:E.
      * unfold print at 1. rewrite encodable_begin, for_each_print.
        cbn [stdout stderr].
        destruct (first_unencodable codec out) as [bad|].
        -- cbn [is_Exception exn_str]. unfold eprint, sys_exit. cbn [stdout stderr].
           rewrite <- app_assoc. reflexivity.
        -- unfold print. rewrite encodable_commit. cbn [stdout stderr].
           rewrite <- !app_assoc. reflexivity.
      * rewrite (process_raises _ _ _ E). reflexivity.
    + unfold print. destruct (encodable codec (lit "Error: File not found: " ++ csv_path));
        reflexivity.
  - unfold print. rewrite encodable_usage. reflexivity.
Qed.

(** A run that gets past the argument and file checks, whose transform
    returns statements that the stream can all encode, prints the whole
    transaction block. *)
Lemma main_success (prog content_id csv_path : str) (file : reader)
    (statements : list str) (st : streams) :
  process_transcription file content_id = Ok statements ->
  forallb (encodable codec) statements = true ->
  main codec [prog; content_id] csv_path true file st =
  (Ok tt, {| stdout := stdout st ++ [lit "BEGIN;"] ++ statements ++ [lit "COMMIT;"];
             stderr := stderr st |}).
Proof.
  intros H Henc. rewrite main_outcome. cbn [length Nat.eqb negb nth]. rewrite H.
  apply first_unencodable_none in Henc. rewrite Henc. reflexivity.
Qed.

(** A run whose transform raises reports on the error stream only. *)
Lemma main_failure (prog content_id csv_path : str) (file : reader)
    (e : exn) (st : streams) :
  process_transcription file content_id = Raise e ->
  main codec [prog; content_id] csv_path true file st =
  (Raise (SystemExit 1),
   {| stdout := stdout st;
      stderr := stderr st ++ [lit "Error processing file: " ++ exn_str e] |}).
Proof.
  intros H. rewrite main_outcome. cbn [length Nat.eqb negb nth]. rewrite H.
  reflexivity.
Qed.

End Main.

(** ** Properties of the row transformer *)

(** C1, as amended: for every record that passes validation, the statement
    appended to the output is exactly the string made of
    [INSERT INTO transcriptions (content_id, text, start_time, end_time) ]
    (ending in a space), a line feed, 23 spaces and
    [VALUES ('<content_id>', '<escaped_text>', <start>, <end>);], with
    content_id and the escaped text single-quoted and start and end inserted
    verbatim and unquoted; one statement is appended per such record. *)
Theorem C1_statement_layout (content_id : str) (row : list str) (acc : list str) :
  passes_validation row = true ->
  loop_body content_id row acc =
  acc ++ [ lit "INSERT INTO transcriptions (content_id, text, start_time, end_time) "
           ++ [LF] ++ repeat SPACE 23
           ++ lit "VALUES ('" ++ content_id ++ lit "', '"
           ++ strip (replace QUOTE [QUOTE; QUOTE] (nth 2 row []))
           ++ lit "', " ++ nth 0 row [] ++ lit ", " ++ nth 1 row [] ++ lit ");" ].
Proof.
  intros H. rewrite loop_body_spec, H. reflexivity.
Qed.

Lemma C1_statement_layout_witness :
  passes_validation [lit "0.0"; lit "1.5"; lit "Hello"] = true /\
  loop_body (lit "abc123") [lit "0.0"; lit "1.5"; lit "Hello"] [] =
  [ lit "INSERT INTO transcriptions (content_id, text, start_time, end_time) "
    ++ [LF] ++ repeat SPACE 23
    ++ lit "VALUES ('abc123', 'Hello', 0.0, 1.5);" ].
Proof.
  split; [reflexivity|].
  exact (C1_statement_layout (lit "abc123") [lit "0.0"; lit "1.5"; lit "Hello"] []
           eq_refl).
Defined.

(** C1 as stated fails: the statement of a passing record is not the
    single-line string, it holds a line feed. *)
Lemma C1_single_line_counterexample :
  passes_validation [lit "0.0"; lit "1.5"; lit "Hello"] = true /\
  loop_body (lit "abc123") [lit "0.0"; lit "1.5"; lit "Hello"] [] <>
  [ one_line_statement (lit "abc123") (lit "Hello") (lit "0.0") (lit "1.5") ] /\
  In LF (statement_of (lit "abc123") [lit "0.0"; lit "1.5"; lit "Hello"]).
Proof.
  split; [reflexivity|]. split.
  - intros H. vm_compute in H. discriminate H.
  - vm_compute. tauto.
Qed.

(** C2: on a non-empty input the first record contributes nothing, whatever
    it holds; every later record contributes exactly one statement if and
    only if it has at least 3 fields and fields 0, 1 and 2 are non-empty,
    and contributes nothing otherwise; the transform returns, it does not
    raise. *)
Theorem C2_header_dropped_rows_validated
    (content_id : str) (header : list str) (rest : list (list str)) :
  process_transcription (reader_of (header :: rest)) content_id =
    Ok (flat_map (contribution content_id) rest)
  /\ forall row,
       (length (contribution content_id row) = 1 <->
        3 <= length row /\ nth 0 row [] <> [] /\ nth 1 row [] <> []
        /\ nth 2 row [] <> [])
       /\ (length (contribution content_id row) <> 1 ->
           contribution content_id row = []).
Proof.
  split.
  - simpl. rewrite for_rows_reader_of. reflexivity.
  - intros row. rewrite <- passes_validation_iff, contribution_spec.
    destruct (passes_validation row); simpl; split; try split;
      congruence || discriminate || reflexivity.
Qed.

(** C3: for a passing record at any place after the header, whose text has
    n single quotes, the text literal of the statement that the transform
    returns for it has exactly 2n single quotes, and each of them is paired
    with a neighbour. *)
Theorem C3_quotes_doubled
    (content_id : str) (header : list str) (before : list (list str))
    (row : list str) (after : list (list str)) :
  passes_validation row = true ->
  exists literal,
    emitted_for content_id header before row after
      (sql_statement content_id literal (nth 0 row []) (nth 1 row []))
    /\ count_char QUOTE literal = 2 * count_char QUOTE (nth 2 row [])
    /\ quotes_paired literal = true.
Proof.
  intros H. exists (escaped_text (nth 2 row [])).
  split; [apply emitted_for_passing; exact H|].
  rewrite escaped_text_strip_first. split.
  - rewrite count_replace.
    destruct (strip_decompose (nth 2 row [])) as [pre [suf [Hpre [Hsuf Ht]]]].
    rewrite Ht at 2. rewrite !count_app, (count_spaces _ Hpre), (count_spaces _ Hsuf).
    lia.
  - apply replace_paired.
Qed.

Lemma C3_quotes_doubled_witness :
  exists literal,
    emitted_for (lit "abc123") [lit "start"; lit "end"; lit "text"]
      [[lit "0.0"; lit "1.5"; lit "Hello"]]
      [lit "1.5"; lit "3.0"; lit " It's Tom's "]
      [[lit "3.0"; lit "4.0"; lit "Bye"]]
      (sql_statement (lit "abc123") literal (lit "1.5") (lit "3.0"))
    /\ count_char QUOTE literal = 2 * 2
    /\ quotes_paired literal = true.
Proof.
  exact (C3_quotes_doubled (lit "abc123") [lit "start"; lit "end"; lit "text"]
           [[lit "0.0"; lit "1.5"; lit "Hello"]]
           [lit "1.5"; lit "3.0"; lit " It's Tom's "]
           [[lit "3.0"; lit "4.0"; lit "Bye"]] eq_refl).
Defined.

(** C4: on an input with a header, the number of statements is the number of
    records after the header minus the number of those that are short or
    have an empty required field; it is at most the number of records minus
    one; and the statements are those of the passing records, one each. *)
Theorem C4_statement_count
    (content_id : str) (header : list str) (rest : list (list str)) :
  exists out,
    process_transcription (reader_of (header :: rest)) content_id = Ok out
    /\ length out = length rest - length (filter rejected rest)
    /\ length out + length (filter rejected rest) = length rest
    /\ length out <= length (header :: rest) - 1
    /\ out = map (statement_of content_id) (filter passes_validation rest).
Proof.
  eexists. split; [apply process_reader_of|].
  rewrite length_map.
  pose proof (filter_split_length _ passes_validation rest) as H.
  rewrite (filter_ext rejected (fun r => negb (passes_validation r)) rejected_negb).
  simpl. repeat split; lia.
Qed.

(** C5: scenario A.  A header, then ("0.0","1.5","Hello") and
    ("1.5","3.0","It's fine"), with content_id "abc123": exactly two
    statements, and the text literal of the second is 'It''s fine'. *)
Theorem C5_scenario_A (header : list str) :
  process_transcription
    (reader_of [header;
                [lit "0.0"; lit "1.5"; lit "Hello"];
                [lit "1.5"; lit "3.0"; lit "It's fine"]])
    (lit "abc123")
  = Ok [ lit "INSERT INTO transcriptions (content_id, text, start_time, end_time) "
         ++ [LF] ++ repeat SPACE 23
         ++ lit "VALUES ('abc123', " ++ lit "'Hello'" ++ lit ", 0.0, 1.5);";
         lit "INSERT INTO transcriptions (content_id, text, start_time, end_time) "
         ++ [LF] ++ repeat SPACE 23
         ++ lit "VALUES ('abc123', " ++ lit "'It''s fine'" ++ lit ", 1.5, 3.0);" ].
Proof. reflexivity. Qed.

(** C6: for a passing record at any place after the header, the text literal
    of the statement that the transform returns for it neither starts nor
    ends with whitespace, and it is the record's text with a run of
    whitespace cut from each end and every single quote doubled; all other
    characters, internal whitespace included, are kept in place. *)
Theorem C6_whitespace
    (content_id : str) (header : list str) (before : list (list str))
    (row : list str) (after : list (list str)) :
  passes_validation row = true ->
  exists literal,
    emitted_for content_id header before row after
      (sql_statement content_id literal (nth 0 row []) (nth 1 row []))
    /\ starts_with_space literal = false
    /\ ends_with_space literal = false
    /\ exists pre core suf,
         nth 2 row [] = pre ++ core ++ suf
         /\ forallb isspace pre = true /\ forallb isspace suf = true
         /\ literal = replace QUOTE [QUOTE; QUOTE] core
         /\ without_quotes literal = without_quotes core.
Proof.
  intros H. exists (escaped_text (nth 2 row [])).
  split; [apply emitted_for_passing; exact H|].
  split; [apply strip_no_leading|]. split; [apply strip_no_trailing|].
  destruct (strip_decompose (nth 2 row [])) as [pre [suf [Hpre [Hsuf Ht]]]].
  exists pre, (strip (nth 2 row [])), suf.
  rewrite escaped_text_strip_first, without_quotes_replace. auto.
Qed.

Lemma C6_whitespace_witness :
  exists literal,
    emitted_for (lit "abc123") [lit "start"; lit "end"; lit "text"]
      [[lit "0.0"; lit "1.5"; lit "Hello"]]
      [lit "1.5"; lit "3.0"; lit "  It's  so   fine "]
      [[lit "3.0"; lit "4.0"; lit "Bye"]]
      (sql_statement (lit "abc123") literal (lit "1.5") (lit "3.0"))
    /\ starts_with_space literal = false
    /\ ends_with_space literal = false
    /\ exists pre core suf,
         lit "  It's  so   fine " = pre ++ core ++ suf
         /\ forallb isspace pre = true /\ forallb isspace suf = true
         /\ literal = replace QUOTE [QUOTE; QUOTE] core
         /\ without_quotes literal = without_quotes core.
Proof.
  exact (C6_whitespace (lit "abc123") [lit "start"; lit "end"; lit "text"]
           [[lit "0.0"; lit "1.5"; lit "Hello"]]
           [lit "1.5"; lit "3.0"; lit "  It's  so   fine "]
           [[lit "3.0"; lit "4.0"; lit "Bye"]] eq_refl).
Defined.

(** C7: statements keep the order of their records.  If record i comes
    before record j after the header and both pass validation, the statement
    of record i is in the output before the statement of record j. *)
Theorem C7_order_preserved
    (content_id : str) (header : list str) (rest : list (list str))
    (i j : nat) (row_i row_j : list str) :
  i < j ->
  nth_error rest i = Some row_i -> nth_error rest j = Some row_j ->
  passes_validation row_i = true -> passes_validation row_j = true ->
  exists out,
    process_transcription (reader_of (header :: rest)) content_id = Ok out
    /\ passing_before i rest < passing_before j rest
    /\ nth_error out (passing_before i rest) = Some (statement_of content_id row_i)
    /\ nth_error out (passing_before j rest) = Some (statement_of content_id row_j).
Proof.
  intros Hij Hi Hj Pi Pj. eexists. split; [apply process_reader_of|].
  unfold passing_before. split; [|split].
  - eapply filter_firstn_lt; eassumption.
  - apply map_nth_error. apply filter_nth_error; assumption.
  - apply map_nth_error. apply filter_nth_error; assumption.
Qed.

Lemma C7_order_preserved_witness :
  exists out,
    process_transcription
      (reader_of [[lit "start"; lit "end"; lit "text"];
                  [lit "0.0"; lit "1.5"; lit "Hello"];
                  [lit "oops"];
                  [lit "1.5"; lit "3.0"; lit "It's fine"]])
      (lit "abc123") = Ok out
    /\ 0 < 1
    /\ nth_error out 0 =
       Some (statement_of (lit "abc123") [lit "0.0"; lit "1.5"; lit "Hello"])
    /\ nth_error out 1 =
       Some (statement_of (lit "abc123") [lit "1.5"; lit "3.0"; lit "It's fine"]).
Proof.
  exact (C7_order_preserved (lit "abc123") [lit "start"; lit "end"; lit "text"]
           [[lit "0.0"; lit "1.5"; lit "Hello"]; [lit "oops"];
            [lit "1.5"; lit "3.0"; lit "It's fine"]]
           0 2 [lit "0.0"; lit "1.5"; lit "Hello"]
           [lit "1.5"; lit "3.0"; lit "It's fine"]
           (Nat.lt_0_succ 1) eq_refl eq_refl eq_refl eq_refl).
Defined.

(** C8: a record whose text is non-empty but all whitespace is not skipped,
    wherever it stands after the header: the transform returns for it a
    statement that carries the empty literal ''. *)
Theorem C8_whitespace_only_text
    (content_id : str) (header : list str) (before after : list (list str))
    (start end_ text : str) (extra : list str) :
  start <> [] -> end_ <> [] -> text <> [] -> forallb isspace text = true ->
  emitted_for content_id header before (start :: end_ :: text :: extra) after
    ( lit "INSERT INTO transcriptions (content_id, text, start_time, end_time) "
      ++ [LF] ++ repeat SPACE 23
      ++ lit "VALUES ('" ++ content_id ++ lit "', '', "
      ++ start ++ lit ", " ++ end_ ++ lit ");" ).
Proof.
  intros Hs He Ht Hw.
  assert (Hp : passes_validation (start :: end_ :: text :: extra) = true).
  { apply passes_validation_iff. simpl. repeat split; try assumption; lia. }
  pose proof (emitted_for_passing content_id header before _ after Hp) as H.
  cbn [nth] in H.
  rewrite escaped_text_strip_first, (strip_spaces _ Hw) in H. exact H.
Qed.

Lemma C8_whitespace_only_text_witness :
  emitted_for (lit "abc123") [lit "start"; lit "end"; lit "text"]
    [[lit "0.0"; lit "1.5"; lit "Hello"]]
    [lit "1.5"; lit "3.0"; lit "   "]
    [[lit "3.0"; lit "4.0"; lit "Bye"]]
    ( lit "INSERT INTO transcriptions (content_id, text, start_time, end_time) "
      ++ [LF] ++ repeat SPACE 23
      ++ lit "VALUES ('abc123', '', 1.5, 3.0);" ).
Proof.
  refine (C8_whitespace_only_text (lit "abc123") [lit "start"; lit "end"; lit "text"]
            [[lit "0.0"; lit "1.5"; lit "Hello"]] [[lit "3.0"; lit "4.0"; lit "Bye"]]
            (lit "1.5") (lit "3.0") (lit "   ") []
            _ _ _ eq_refl); discriminate.
Defined.

(** ** Properties of the entry point *)

(** C9: on an input with no record at all the transform does not return an
    empty sequence; it raises StopIteration, and the run takes the
    processing-error path, whatever standard output can encode: nothing on
    standard output, the message on the error stream, exit status 1. *)
Theorem C9_empty_input (codec : stdout_codec) (prog content_id csv_path : str) :
  process_transcription (reader_of []) content_id = Raise StopIteration
  /\ process_transcription (reader_of []) content_id <> Ok []
  /\ main codec [prog; content_id] csv_path true (reader_of []) no_output =
     (Raise (SystemExit 1),
      {| stdout := []; stderr := [lit "Error processing file: "] |})
  /\ exit_status
       (fst (main codec [prog; content_id] csv_path true (reader_of []) no_output)) = 1%N.
Proof.
  repeat split; discriminate.
Qed.

(** C10: when the transform raises, the run has written nothing to standard
    output, whatever standard output can encode: the statements are built
    before BEGIN; is printed. *)
Theorem C10_no_output_on_error
    (codec : stdout_codec) (prog content_id csv_path : str) (file : reader)
    (e : exn) (st : streams) :
  process_transcription file content_id = Raise e ->
  stdout (snd (main codec [prog; content_id] csv_path true file st)) = stdout st.
Proof.
  intros H. rewrite (main_failure codec prog content_id csv_path file e st H).
  reflexivity.
Qed.

Lemma C10_no_output_on_error_witness :
  process_transcription
    (Yield [lit "start"; lit "end"; lit "text"]
       (Yield [lit "0.0"; lit "1.5"; lit "Hello"] (Fails (lit "invalid start byte"))))
    (lit "abc123") = Raise (ReadFailure (lit "invalid start byte"))
  /\ stdout (snd (main ascii_stdout
       [lit "process_transcription.py"; lit "abc123"] (lit "t.csv") true
       (Yield [lit "start"; lit "end"; lit "text"]
          (Yield [lit "0.0"; lit "1.5"; lit "Hello"] (Fails (lit "invalid start byte"))))
       no_output)) = [].
Proof.
  split; [reflexivity|].
  exact (C10_no_output_on_error ascii_stdout
           (lit "process_transcription.py") (lit "abc123") (lit "t.csv")
           (Yield [lit "start"; lit "end"; lit "text"]
              (Yield [lit "0.0"; lit "1.5"; lit "Hello"]
                 (Fails (lit "invalid start byte"))))
           (ReadFailure (lit "invalid start byte")) no_output eq_refl).
Defined.

(** ** Further properties of the row transformer *)

Section TransformerMore.

Variable content_id : str.

Lemma for_rows_app (rows : list (list str)) (tail : reader) (acc : list str) :
  for_rows content_id (reader_app rows tail) acc =
  for_rows content_id tail (acc ++ flat_map (contribution content_id) rows).
Proof.
  revert acc. induction rows as [|row rows IH]; intros acc; simpl.
  - rewrite app_nil_r. reflexivity.
  - rewrite IH, loop_body_acc, app_assoc. reflexivity.
Qed.

Lemma for_rows_returns (rd : reader) (acc out : list str) :
  for_rows content_id rd acc = Ok out -> exists rows, rd = reader_of rows.
Proof.
  revert acc. induction rd as [|row rest IH|msg]; intros acc H; simpl in H.
  - exists []. reflexivity.
  - destruct (IH _ H) as [rows ->]. exists (row :: rows). reflexivity.
  - discriminate.
Qed.

Lemma for_rows_no_stop (rd : reader) (acc : list str) :
  for_rows content_id rd acc <> Raise StopIteration.
Proof.
  revert acc. induction rd as [|row rest IH|msg]; intros acc; simpl;
    [discriminate | apply IH | discriminate].
Qed.

Lemma count_escaped_text (t : str) :
  count_char QUOTE (escaped_text t) = 2 * count_char QUOTE t.
Proof.
  rewrite escaped_text_strip_first, count_replace.
  destruct (strip_decompose t) as [pre [suf [Hpre [Hsuf Ht]]]].
  rewrite Ht at 2. rewrite !count_app, (count_spaces _ Hpre), (count_spaces _ Hsuf).
  lia.
Qed.

Lemma replace_no_quote (s : str) :
  count_char QUOTE s = 0 -> replace QUOTE [QUOTE; QUOTE] s = s.
Proof.
  unfold count_char. induction s as [|c s IH]; simpl; intros H; [reflexivity|].
  destruct (c =? QUOTE)%N; simpl in H; [discriminate | rewrite IH by exact H; reflexivity].
Qed.

Lemma literal_value_replace (s : str) :
  sql_literal_value (replace QUOTE [QUOTE; QUOTE] s) = s.
Proof.
  induction s as [|c s IH]; [reflexivity|].
  cbn [replace]. destruct (N.eqb_spec c QUOTE) as [->|Hc].
  - simpl. rewrite IH. reflexivity.
  - cbn [sql_literal_value]. apply N.eqb_neq in Hc. rewrite Hc, IH. reflexivity.
Qed.

Lemma contribution_firstn (row : list str) :
  contribution content_id (firstn 3 row) = contribution content_id row.
Proof.
  destruct row as [|a [|b [|c r]]]; reflexivity.
Qed.

End TransformerMore.

(** X1: the transform returns a list of statements exactly when its record
    source yields at least one record and is read to its end without a
    failure. *)
Theorem X1_returns_iff_clean_nonempty (content_id : str) (rd : reader) :
  (exists out, process_transcription rd content_id = Ok out) <->
  (exists header rest, rd = reader_of (header :: rest)).
Proof.
  split.
  - intros [out H]. destruct rd as [|row rest|msg]; simpl in H; try discriminate.
    destruct (for_rows_returns _ _ _ _ H) as [rows ->].
    exists row, rows. reflexivity.
  - intros [header [rest ->]]. eexists. apply process_reader_of.
Qed.

(** X2: the transform raises StopIteration exactly when the source has no
    record at all; once the header has been read, running out of records
    ends the loop normally. *)
Theorem X2_stop_iteration_iff_no_record (content_id : str) (rd : reader) :
  process_transcription rd content_id = Raise StopIteration <-> rd = Exhausted.
Proof.
  split.
  - destruct rd as [|row rest|msg]; simpl; intros H.
    + reflexivity.
    + exfalso. exact (for_rows_no_stop _ _ _ H).
    + discriminate.
  - intros ->. reflexivity.
Qed.

(** X3: a read failure loses everything built so far.  Whatever records,
    passing or not, were read before the failure, the transform raises the
    failure and returns no statement. *)
Theorem X3_read_failure_discards_statements
    (content_id : str) (rows : list (list str)) (msg : str) :
  process_transcription (reader_app rows (Fails msg)) content_id =
  Raise (ReadFailure msg).
Proof.
  destruct rows as [|header rest]; simpl; [reflexivity|].
  rewrite for_rows_app. reflexivity.
Qed.

(** X4: fields after the third are ignored: cutting every record down to its
    first three fields gives the same result. *)
Theorem X4_extra_fields_ignored
    (content_id : str) (header : list str) (rest : list (list str)) :
  process_transcription (reader_of (header :: map (firstn 3) rest)) content_id =
  process_transcription (reader_of (header :: rest)) content_id.
Proof.
  cbn [reader_of process_transcription]. rewrite !for_rows_reader_of.
  f_equal. f_equal.
  induction rest as [|row rest IH]; cbn [map flat_map]; [reflexivity|].
  rewrite contribution_firstn, IH. reflexivity.
Qed.

(** X5: a record that is short or has an empty required field leaves no
    trace: with it or without it, at any place after the header, the result
    is the same. *)
Theorem X5_rejected_row_has_no_effect
    (content_id : str) (header : list str) (before after : list (list str))
    (row : list str) :
  rejected row = true ->
  process_transcription (reader_of (header :: before ++ row :: after)) content_id =
  process_transcription (reader_of (header :: before ++ after)) content_id.
Proof.
  intros H. rewrite !process_reader_of, !filter_app. simpl.
  rewrite rejected_negb in H. apply negb_true_iff in H. rewrite H. reflexivity.
Qed.

Lemma X5_rejected_row_has_no_effect_witness :
  process_transcription
    (reader_of ([lit "start"; lit "end"; lit "text"]
                :: [[lit "0.0"; lit "1.5"; lit "Hello"]]
                   ++ [lit "1.5"; lit "3.0"]
                   :: [[lit "3.0"; lit "4.0"; lit "Bye"]])) (lit "abc123") =
  process_transcription
    (reader_of ([lit "start"; lit "end"; lit "text"]
                :: [[lit "0.0"; lit "1.5"; lit "Hello"]]
                   ++ [[lit "3.0"; lit "4.0"; lit "Bye"]])) (lit "abc123").
Proof.
  exact (X5_rejected_row_has_no_effect (lit "abc123") [lit "start"; lit "end"; lit "text"]
           [[lit "0.0"; lit "1.5"; lit "Hello"]] [[lit "3.0"; lit "4.0"; lit "Bye"]]
           [lit "1.5"; lit "3.0"] eq_refl).
Defined.

(** X6: the records are handled one by one, with nothing carried from one to
    the next: the statements for the records [r1 ++ r2] are the statements
    for [r1] followed by the statements for [r2]. *)
Theorem X6_statements_of_concatenation
    (content_id : str) (header : list str) (r1 r2 : list (list str)) :
  exists out1 out2,
    process_transcription (reader_of (header :: r1)) content_id = Ok out1
    /\ process_transcription (reader_of (header :: r2)) content_id = Ok out2
    /\ process_transcription (reader_of (header :: r1 ++ r2)) content_id
       = Ok (out1 ++ out2).
Proof.
  do 2 eexists. rewrite !process_reader_of, filter_app, map_app. auto.
Qed.

(** X7: in the statement that the transform returns for a passing record,
    content_id, start and end stand with their single quotes as they are
    and only the text has its quotes doubled: the statement holds the 4
    delimiting quotes, the quotes of content_id, start and end, and twice
    the quotes of the text. *)
Theorem X7_quotes_in_statement
    (content_id : str) (header : list str) (before : list (list str))
    (row : list str) (after : list (list str)) :
  passes_validation row = true ->
  exists statement,
    emitted_for content_id header before row after statement
    /\ count_char QUOTE statement =
       4 + count_char QUOTE content_id + 2 * count_char QUOTE (nth 2 row [])
       + count_char QUOTE (nth 0 row []) + count_char QUOTE (nth 1 row []).
Proof.
  intros H. eexists. split; [apply emitted_for_passing; exact H|].
  unfold sql_statement.
  rewrite !count_app, count_escaped_text.
  change (count_char QUOTE (lit "INSERT INTO transcriptions (content_id, text, start_time, end_time) ")) with 0.
  change (count_char QUOTE [LF]) with 0.
  change (count_char QUOTE (repeat SPACE 23)) with 0.
  change (count_char QUOTE (lit "VALUES ('")) with 1.
  change (count_char QUOTE (lit "', '")) with 2.
  change (count_char QUOTE (lit "', ")) with 1.
  change (count_char QUOTE (lit ", ")) with 0.
  change (count_char QUOTE (lit ");")) with 0.
  lia.
Qed.

Lemma X7_quotes_in_statement_witness :
  exists statement,
    emitted_for (lit "abc'123") [lit "start"; lit "end"; lit "text"]
      [[lit "0.0"; lit "1.5"; lit "Hello"]]
      [lit "1.5"; lit "3.0"; lit "It's fine"]
      [[lit "3.0"; lit "4.0"; lit "Bye"]] statement
    /\ count_char QUOTE statement = 4 + 1 + 2 * 1 + 0 + 0.
Proof.
  exact (X7_quotes_in_statement (lit "abc'123") [lit "start"; lit "end"; lit "text"]
           [[lit "0.0"; lit "1.5"; lit "Hello"]]
           [lit "1.5"; lit "3.0"; lit "It's fine"]
           [[lit "3.0"; lit "4.0"; lit "Bye"]] eq_refl).
Defined.

(** X8: read back under SQL's rule that two quotes in a literal stand for
    one, the text literal of the statement that the transform returns for a
    passing record is the record's text with the whitespace at its two ends
    removed. *)
Theorem X8_literal_reads_back
    (content_id : str) (header : list str) (before : list (list str))
    (row : list str) (after : list (list str)) :
  passes_validation row = true ->
  exists literal,
    emitted_for content_id header before row after
      (sql_statement content_id literal (nth 0 row []) (nth 1 row []))
    /\ sql_literal_value literal = strip (nth 2 row []).
Proof.
  intros H. exists (escaped_text (nth 2 row [])).
  split; [apply emitted_for_passing; exact H|].
  rewrite escaped_text_strip_first. apply literal_value_replace.
Qed.

Lemma X8_literal_reads_back_witness :
  exists literal,
    emitted_for (lit "abc123") [lit "start"; lit "end"; lit "text"]
      [[lit "0.0"; lit "1.5"; lit "Hello"]]
      [lit "1.5"; lit "3.0"; lit " It's fine "]
      [[lit "3.0"; lit "4.0"; lit "Bye"]]
      (sql_statement (lit "abc123") literal (lit "1.5") (lit "3.0"))
    /\ sql_literal_value literal = lit "It's fine".
Proof.
  exact (X8_literal_reads_back (lit "abc123") [lit "start"; lit "end"; lit "text"]
           [[lit "0.0"; lit "1.5"; lit "Hello"]]
           [lit "1.5"; lit "3.0"; lit " It's fine "]
           [[lit "3.0"; lit "4.0"; lit "Bye"]] eq_refl).
Defined.

(** X9: the text literal of the statement that the transform returns for a
    passing record is the record's text itself exactly when that text has
    no single quote and no whitespace at either end. *)
Theorem X9_escaped_text_unchanged_iff
    (content_id : str) (header : list str) (before : list (list str))
    (row : list str) (after : list (list str)) :
  passes_validation row = true ->
  exists literal,
    emitted_for content_id header before row after
      (sql_statement content_id literal (nth 0 row []) (nth 1 row []))
    /\ (literal = nth 2 row [] <->
        count_char QUOTE (nth 2 row []) = 0
        /\ starts_with_space (nth 2 row []) = false
        /\ ends_with_space (nth 2 row []) = false).
Proof.
  intros Hp. exists (escaped_text (nth 2 row [])).
  split; [apply emitted_for_passing; exact Hp|].
  set (text := nth 2 row []). split.
  - intros H. split; [|split].
    + pose proof (count_escaped_text text) as Hc. rewrite H in Hc. lia.
    + rewrite <- H. apply strip_no_leading.
    + rewrite <- H. apply strip_no_trailing.
  - intros [Hq [Hl Hr]]. unfold escaped_text.
    rewrite (replace_no_quote _ Hq).
    pose proof (strip_unique [] text [] eq_refl eq_refl Hl Hr) as H.
    simpl in H. rewrite app_nil_r in H. exact H.
Qed.

Lemma X9_escaped_text_unchanged_iff_witness :
  exists literal,
    emitted_for (lit "abc123") [lit "start"; lit "end"; lit "text"]
      [[lit "0.0"; lit "1.5"; lit "Hello"]]
      [lit "1.5"; lit "3.0"; lit "so fine"]
      [[lit "3.0"; lit "4.0"; lit "Bye"]]
      (sql_statement (lit "abc123") literal (lit "1.5") (lit "3.0"))
    /\ (literal = lit "so fine" <->
        count_char QUOTE (lit "so fine") = 0
        /\ starts_with_space (lit "so fine") = false
        /\ ends_with_space (lit "so fine") = false).
Proof.
  exact (X9_escaped_text_unchanged_iff (lit "abc123")
           [lit "start"; lit "end"; lit "text"]
           [[lit "0.0"; lit "1.5"; lit "Hello"]]
           [lit "1.5"; lit "3.0"; lit "so fine"]
           [[lit "3.0"; lit "4.0"; lit "Bye"]] eq_refl).
Defined.

(** ** Further properties of the entry point *)

(** X10: with any number of arguments other than one, the run prints the
    usage line on standard output and exits with status 1, whatever
    standard output can encode; the file is not looked at and nothing goes
    to the error stream. *)
Theorem X10_usage_error
    (codec : stdout_codec) (argv : list str) (csv_path : str)
    (path_exists : bool) (file : reader) (st : streams) :
  length argv <> 2 ->
  main codec argv csv_path path_exists file st =
  (Raise (SystemExit 1),
   {| stdout := stdout st ++ [lit "Usage: python process_transcription.py <content_id>"];
      stderr := stderr st |}).
Proof.
  intros H. apply Nat.eqb_neq in H. rewrite main_outcome, H. reflexivity.
Qed.

Lemma X10_usage_error_witness :
  main ascii_stdout [lit "process_transcription.py"] (lit "t.csv") true
    (reader_of [[lit "start"; lit "end"; lit "text"]]) no_output =
  (Raise (SystemExit 1),
   {| stdout := [lit "Usage: python process_transcription.py <content_id>"];
      stderr := [] |}).
Proof.
  refine (X10_usage_error ascii_stdout [lit "process_transcription.py"] (lit "t.csv")
            true (reader_of [[lit "start"; lit "end"; lit "text"]]) no_output _).
  discriminate.
Defined.

(** X11: with one argument and no file at the path, the run prints
    [Error: File not found: <path>] on standard output, not on the error
    stream, and exits with status 1 without reading anything.  When
    standard output cannot encode the path, that print raises instead: the
    run writes nothing and ends on the uncaught error. *)
Theorem X11_missing_file
    (codec : stdout_codec) (argv : list str) (csv_path : str) (file : reader)
    (st : streams) :
  length argv = 2 ->
  main codec argv csv_path false file st =
  if encodable codec (lit "Error: File not found: " ++ csv_path) then
    (Raise (SystemExit 1),
     {| stdout := stdout st ++ [lit "Error: File not found: " ++ csv_path];
        stderr := stderr st |})
  else
    (Raise (UnicodeEncodeError
              (error_text codec (lit "Error: File not found: " ++ csv_path))), st).
Proof.
  intros H. apply Nat.eqb_eq in H. rewrite main_outcome, H. reflexivity.
Qed.

Lemma X11_missing_file_witness :
  main ascii_stdout [lit "process_transcription.py"; lit "abc123"] (lit "t.csv") false
    Exhausted no_output =
  (Raise (SystemExit 1),
   {| stdout := [lit "Error: File not found: t.csv"]; stderr := [] |}).
Proof.
  exact (X11_missing_file ascii_stdout [lit "process_transcription.py"; lit "abc123"]
           (lit "t.csv") Exhausted no_output eq_refl).
Defined.

(** X12: on a file that is read to its end and has a header, when standard
    output can encode every statement, the run prints BEGIN;, then the
    statement of each passing record in order, then COMMIT;, writes nothing
    to the error stream and ends normally. *)
Theorem X12_transaction_block
    (codec : stdout_codec) (prog content_id csv_path : str) (header : list str)
    (rest : list (list str)) (st : streams) :
  forallb (encodable codec)
    (map (statement_of content_id) (filter passes_validation rest)) = true ->
  main codec [prog; content_id] csv_path true (reader_of (header :: rest)) st =
  (Ok tt,
   {| stdout := stdout st ++ [lit "BEGIN;"]
                ++ map (statement_of content_id) (filter passes_validation rest)
                ++ [lit "COMMIT;"];
      stderr := stderr st |}).
Proof.
  intros H. apply main_success; [apply process_reader_of | exact H].
Qed.

Lemma X12_transaction_block_witness :
  main ascii_stdout [lit "process_transcription.py"; lit "abc123"] (lit "t.csv") true
    (reader_of [[lit "start"; lit "end"; lit "text"];
                [lit "0.0"; lit "1.5"; lit "Hello"];
                [lit "oops"];
                [lit "1.5"; lit "3.0"; lit "It's fine"]]) no_output =
  (Ok tt,
   {| stdout :=
        [lit "BEGIN;";
         statement_of (lit "abc123") [lit "0.0"; lit "1.5"; lit "Hello"];
         statement_of (lit "abc123") [lit "1.5"; lit "3.0"; lit "It's fine"];
         lit "COMMIT;"];
      stderr := [] |}).
Proof.
  exact (X12_transaction_block ascii_stdout (lit "process_transcription.py")
           (lit "abc123") (lit "t.csv") [lit "start"; lit "end"; lit "text"]
           [[lit "0.0"; lit "1.5"; lit "Hello"]; [lit "oops"];
            [lit "1.5"; lit "3.0"; lit "It's fine"]] no_output eq_refl).
Defined.

(** X13: when reading the file fails, whatever was read before and whatever
    standard output can encode, the run writes
    [Error processing file: <message>] to the error stream, nothing to
    standard output, and exits with status 1. *)
Theorem X13_read_failure_report
    (codec : stdout_codec) (prog content_id csv_path : str)
    (rows : list (list str)) (msg : str) (st : streams) :
  main codec [prog; content_id] csv_path true (reader_app rows (Fails msg)) st =
  (Raise (SystemExit 1),
   {| stdout := stdout st;
      stderr := stderr st ++ [lit "Error processing file: " ++ msg] |}).
Proof.
  apply (main_failure codec prog content_id csv_path _ (ReadFailure msg) st).
  destruct rows as [|header rest]; simpl; [reflexivity|].
  rewrite for_rows_app. reflexivity.
Qed.

(** X14: the exit status is 0 exactly when there is one argument, the file
    exists, the transform returns and standard output can encode every
    statement; in every other case it is 1. *)
Theorem X14_exit_status
    (codec : stdout_codec) (argv : list str) (csv_path : str)
    (path_exists : bool) (file : reader) (st : streams) :
  exit_status (fst (main codec argv csv_path path_exists file st)) =
  if (length argv =? 2) && path_exists
     && match process_transcription file (nth 1 argv []) with
        | Ok statements => forallb (encodable codec) statements
        | Raise _ => false
        end
  then 0%N else 1%N.
Proof.
  rewrite main_outcome.
  destruct (length argv =? 2); cbn [negb andb]; [|reflexivity].
  destruct path_exists; cbn [negb andb].
  - destruct (process_transcription file (nth 1 argv [])) as [statements|e];
      [|reflexivity].
    destruct (first_unencodable codec statements) as [bad|] eqn:E.
    + destruct (forallb (encodable codec) statements) eqn:F; [|reflexivity].
      apply first_unencodable_none in F. congruence.
    + apply first_unencodable_none in E. rewrite E. reflexivity.
  - destruct (encodable codec (lit "Error: File not found: " ++ csv_path));
      reflexivity.
Qed.

(** X15: a run that ends with exit status 0 has printed the complete
    transaction block: BEGIN;, every statement that the transform returned,
    COMMIT;, and nothing on the error stream. *)
Theorem X15_exit_zero_complete_block
    (codec : stdout_codec) (argv : list str) (csv_path : str)
    (path_exists : bool) (file : reader) (st : streams) :
  exit_status (fst (main codec argv csv_path path_exists file st)) = 0%N ->
  exists statements,
    process_transcription file (nth 1 argv []) = Ok statements
    /\ snd (main codec argv csv_path path_exists file st) =
       {| stdout := stdout st ++ [lit "BEGIN;"] ++ statements ++ [lit "COMMIT;"];
          stderr := stderr st |}.
Proof.
  rewrite main_outcome.
  destruct (length argv =? 2); cbn [negb andb]; [|discriminate].
  destruct path_exists; cbn [negb andb].
  - destruct (process_transcription file (nth 1 argv [])) as [statements|e];
      [|discriminate].
    destruct (first_unencodable codec statements) as [bad|]; [discriminate|].
    intros _. exists statements. split; reflexivity.
  - destruct (encodable codec (lit "Error: File not found: " ++ csv_path));
      discriminate.
Qed.

Lemma X15_exit_zero_complete_block_witness :
  exists statements,
    process_transcription (reader_of [[lit "start"; lit "end"; lit "text"];
                                      [lit "0.0"; lit "1.5"; lit "Hello"]])
      (lit "abc123") = Ok statements
    /\ snd (main ascii_stdout [lit "process_transcription.py"; lit "abc123"]
              (lit "t.csv") true
              (reader_of [[lit "start"; lit "end"; lit "text"];
                          [lit "0.0"; lit "1.5"; lit "Hello"]]) no_output) =
       {| stdout := [lit "BEGIN;"] ++ statements ++ [lit "COMMIT;"]; stderr := [] |}.
Proof.
  exact (X15_exit_zero_complete_block ascii_stdout
           [lit "process_transcription.py"; lit "abc123"] (lit "t.csv") true
           (reader_of [[lit "start"; lit "end"; lit "text"];
                       [lit "0.0"; lit "1.5"; lit "Hello"]]) no_output eq_refl).
Defined.

(** X16: the statements are printed inside the guarded block, one by one.
    When standard output cannot encode one of them, the run stops there:
    standard output keeps BEGIN; and the statements before that one, with
    no COMMIT;, the error stream gets [Error processing file: <message>],
    and the exit status is 1. *)
Theorem X16_unencodable_statement_stops_output
    (codec : stdout_codec) (prog content_id csv_path : str) (file : reader)
    (good : list str) (bad : str) (rest : list str) (st : streams) :
  process_transcription file content_id = Ok (good ++ bad :: rest) ->
  forallb (encodable codec) good = true ->
  encodable codec bad = false ->
  main codec [prog; content_id] csv_path true file st =
  (Raise (SystemExit 1),
   {| stdout := stdout st ++ [lit "BEGIN;"] ++ good;
      stderr := stderr st ++ [lit "Error processing file: " ++ error_text codec bad] |}).
Proof.
  intros H Hg Hb. rewrite main_outcome. cbn [length Nat.eqb negb nth]. rewrite H.
  destruct (first_unencodable_split codec good bad rest Hg Hb) as [-> ->].
  reflexivity.
Qed.

Lemma X16_unencodable_statement_stops_output_witness :
  main ascii_stdout [lit "process_transcription.py"; lit "abc123"] (lit "t.csv") true
    (reader_of [[lit "start"; lit "end"; lit "text"];
                [lit "0.0"; lit "1.5"; lit "Hello"];
                [lit "1.5"; lit "3.0"; lit "caf" ++ [233%N]];
                [lit "3.0"; lit "4.0"; lit "Bye"]]) no_output =
  (Raise (SystemExit 1),
   {| stdout := [lit "BEGIN;";
                 statement_of (lit "abc123") [lit "0.0"; lit "1.5"; lit "Hello"]];
      stderr := [lit "Error processing file: 'ascii' codec can't encode character"] |}).
Proof.
  exact (X16_unencodable_statement_stops_output ascii_stdout
           (lit "process_transcription.py") (lit "abc123") (lit "t.csv")
           (reader_of [[lit "start"; lit "end"; lit "text"];
                       [lit "0.0"; lit "1.5"; lit "Hello"];
                       [lit "1.5"; lit "3.0"; lit "caf" ++ [233%N]];
                       [lit "3.0"; lit "4.0"; lit "Bye"]])
           [statement_of (lit "abc123") [lit "0.0"; lit "1.5"; lit "Hello"]]
           (statement_of (lit "abc123") [lit "1.5"; lit "3.0"; lit "caf" ++ [233%N]])
           [statement_of (lit "abc123") [lit "3.0"; lit "4.0"; lit "Bye"]]
           no_output eq_refl eq_refl eq_refl).
Defined.
